(** * The solar system lookup service ([app.py])

    A shallow embedding of the Flask handlers of [app.py] and the
    properties of its two data endpoints, [/api/planet-info/<planet_name>]
    and [/api/sun-info].

    Modelling choices.
    - A Python [str] is a Rocq [string] holding the UTF-8 encoding of the
      text, so the literals of the source (with their degree signs and
      superscripts) are written as they stand.
    - A Python [dict] with [str] keys is a [gmap string _]; a dict display
      [{k1: v1, ..., kn: vn}] stores its items from left to right.
    - The values of the records are Python [str] and [int] objects.
    - [jsonify] builds a response with status 200 whose payload is the
      JSON object of the dictionary it is given.
    - [str.lower] is the folding of the letters [A]..[Z]; the bytes of a
      character outside ASCII are kept as they are. Python folds capital
      letters outside ASCII as well; the keys of the planet table are made
      of the small letters [a]..[z] only, so a name with such a letter is
      not a key before or after folding. Where a statement names the
      lowercase form of an input, it is also given for any lowering
      function that treats text outside ASCII as [str.lower] does. *)

From Stdlib Require Import ZArith NArith Ascii String List.
From stdpp Require Import base option gmap strings list fin_maps.

Local Open Scope string_scope.

(** ** Python values *)

Module Py.

(** The values that occur in the records: text and integers. *)
Inductive value : Type :=
| Str (s : string)
| Int (n : Z).

#[global] Instance value_eq_dec : EqDecision value.
Proof. solve_decision. Defined.

(** A dict display: the items are stored one after the other, starting
    from the empty dict, so that a repeated key keeps its last value. *)
Definition dict {V : Type} (items : list (string * V)) : gmap string V :=
  foldl (fun d kv => <[kv.1 := kv.2]> d) ∅ items.

(** [d.get(key, default)] *)
Definition get {V : Type} (d : gmap string V) (key : string) (dflt : V) : V :=
  match d !! key with
  | Some v => v
  | None => dflt
  end.

(** [str.lower] on one character: the letters [A]..[Z] (codes 65..90)
    move to [a]..[z]; every other byte of the encoding is kept. *)
Definition lower_char (c : ascii) : ascii :=
  let n := N_of_ascii c in
  if ((65 <=? n) && (n <=? 90))%N then ascii_of_N (n + 32) else c.

(** [s.lower()] *)
Fixpoint lower (s : string) : string :=
  match s with
  | EmptyString => EmptyString
  | String c rest => String (lower_char c) (lower rest)
  end.

(** [str.upper] on one character, used to describe case variants. *)
Definition upper_char (c : ascii) : ascii :=
  let n := N_of_ascii c in
  if ((97 <=? n) && (n <=? 122))%N then ascii_of_N (n - 32) else c.

End Py.

(** ** Flask responses *)

Abbreviation record := (gmap string Py.value).

(** What a response carries: a page of text, or a JSON object. *)
Inductive body : Type :=
| Html (text : string)
| Json (d : record).

Record response : Type := Response {
  status_code : Z;
  data : body
}.

(** [jsonify(d)]: a 200 response that carries the object [d]. *)
Definition jsonify (d : record) : response :=
  {| status_code := 200; data := Json d |}.

(** A view that returns text: Flask wraps it in a 200 response. *)
Definition make_response (text : string) : response :=
  {| status_code := 200; data := Html text |}.

(** [response.get_json()]: the JSON object of a response, if it has one. *)
Definition get_json (r : response) : option record :=
  match data r with
  | Json d => Some d
  | Html _ => None
  end.

(** ** The handlers *)

(** The dict display bound to [planets] in [planet_info]. *)
Definition planets_display : list (string * record) :=
  [ ("mercury", Py.dict
      [ ("name", Py.Str "Mercury");
        ("diameter", Py.Str "4,879 km");
        ("distance_from_sun", Py.Str "57.9 million km");
        ("orbital_period", Py.Str "88 Earth days");
        ("day_length", Py.Str "59 Earth days");
        ("temperature", Py.Str "-180°C to 430°C");
        ("moons", Py.Int 0);
        ("description", Py.Str "Mercury is the smallest planet in our solar system and closest to the Sun.") ]);
    ("venus", Py.dict
      [ ("name", Py.Str "Venus");
        ("diameter", Py.Str "12,104 km");
        ("distance_from_sun", Py.Str "108.2 million km");
        ("orbital_period", Py.Str "225 Earth days");
        ("day_length", Py.Str "243 Earth days");
        ("temperature", Py.Str "465°C (average)");
        ("moons", Py.Int 0);
        ("description", Py.Str "Venus is the hottest planet in our solar system due to its thick atmosphere.") ]);
    ("earth", Py.dict
      [ ("name", Py.Str "Earth");
        ("diameter", Py.Str "12,742 km");
        ("distance_from_sun", Py.Str "149.6 million km");
        ("orbital_period", Py.Str "365.25 days");
        ("day_length", Py.Str "24 hours");
        ("temperature", Py.Str "15°C (average)");
        ("moons", Py.Int 1);
        ("description", Py.Str "Earth is the only planet known to support life.") ]);
    ("mars", Py.dict
      [ ("name", Py.Str "Mars");
        ("diameter", Py.Str "6,779 km");
        ("distance_from_sun", Py.Str "227.9 million km");
        ("orbital_period", Py.Str "687 Earth days");
        ("day_length", Py.Str "24.6 hours");
        ("temperature", Py.Str "-65°C (average)");
        ("moons", Py.Int 2);
        ("description", Py.Str "Mars is known as the Red Planet due to iron oxide on its surface.") ]);
    ("jupiter", Py.dict
      [ ("name", Py.Str "Jupiter");
        ("diameter", Py.Str "139,820 km");
        ("distance_from_sun", Py.Str "778.5 million km");
        ("orbital_period", Py.Str "11.86 Earth years");
        ("day_length", Py.Str "9.93 hours");
        ("temperature", Py.Str "-110°C (cloud top)");
        ("moons", Py.Int 95);
        ("description", Py.Str "Jupiter is the largest planet in our solar system with the famous Great Red Spot.") ]);
    ("saturn", Py.dict
      [ ("name", Py.Str "Saturn");
        ("diameter", Py.Str "116,460 km");
        ("distance_from_sun", Py.Str "1.4 billion km");
        ("orbital_period", Py.Str "29.46 Earth years");
        ("day_length", Py.Str "10.7 hours");
        ("temperature", Py.Str "-140°C (cloud top)");
        ("moons", Py.Int 146);
        ("description", Py.Str "Saturn is famous for its stunning ring system made of ice and rock.") ]);
    ("uranus", Py.dict
      [ ("name", Py.Str "Uranus");
        ("diameter", Py.Str "50,724 km");
        ("distance_from_sun", Py.Str "2.9 billion km");
        ("orbital_period", Py.Str "84 Earth years");
        ("day_length", Py.Str "17.2 hours");
        ("temperature", Py.Str "-195°C (cloud top)");
        ("moons", Py.Int 28);
        ("description", Py.Str "Uranus rotates on its side, possibly due to a collision with an Earth-sized object.") ]);
    ("neptune", Py.dict
      [ ("name", Py.Str "Neptune");
        ("diameter", Py.Str "49,244 km");
        ("distance_from_sun", Py.Str "4.5 billion km");
        ("orbital_period", Py.Str "164.8 Earth years");
        ("day_length", Py.Str "16.1 hours");
        ("temperature", Py.Str "-200°C (cloud top)");
        ("moons", Py.Int 16);
        ("description", Py.Str "Neptune has the strongest winds in the solar system, reaching 2,100 km/h.") ]) ].

(** The local variables of a call of [planet_info] when it returns. *)
Record planet_info_locals : Type := Locals {
  planets : gmap string record;
  planet_data : record
}.

(** The body of [planet_info(planet_name)] up to its [return]: the table
    is built by the call, and the lowered name is looked up in it with
    the empty dict as default. *)
Definition planet_info_body (planet_name : string) : planet_info_locals :=
  let planets := Py.dict planets_display in
  let planet_data := Py.get planets (Py.lower planet_name) ∅ in
  {| planets := planets; planet_data := planet_data |}.

(** [planet_info(planet_name)] *)
Definition planet_info (planet_name : string) : response :=
  jsonify (planet_data (planet_info_body planet_name)).

(** [sun_info()] *)
Definition sun_info (_ : unit) : response :=
  jsonify (Py.dict
    [ ("name", Py.Str "Sun");
      ("type", Py.Str "G-type main-sequence star");
      ("diameter", Py.Str "1,392,700 km");
      ("mass", Py.Str "1.989 × 10³⁰ kg");
      ("surface_temperature", Py.Str "5,500°C");
      ("core_temperature", Py.Str "15 million°C");
      ("age", Py.Str "4.6 billion years");
      ("composition", Py.Str "73% Hydrogen, 25% Helium");
      ("description", Py.Str "The Sun is the star at the center of our Solar System. It provides the energy that sustains life on Earth.") ]).

(** ** The application *)

Section App.

(** [render_template] and the templates folder belong to Flask and to
    the front end: the text of a rendered template, or [None] when
    rendering raises. *)
Variable render_template : string -> option string.

(** [index()] *)
Definition index (_ : unit) : option string :=
  render_template "index.html".

(** The three routes of the application, after URL matching. *)
Inductive request : Type :=
| GetIndex
| GetPlanetInfo (planet_name : string)
| GetSunInfo.

(** A view either returns a response or raises. *)
Inductive outcome : Type :=
| Returned (r : response)
| Raised.

Definition dispatch (req : request) : outcome :=
  match req with
  | GetIndex =>
      match index tt with
      | Some text => Returned (make_response text)
      | None => Raised
      end
  | GetPlanetInfo planet_name => Returned (planet_info planet_name)
  | GetSunInfo => Returned (sun_info tt)
  end.

(** The requests of a process are served one after the other; no view
    assigns to a global, so nothing is carried from one to the next. *)
Definition serve (reqs : list request) : list outcome :=
  dispatch <$> reqs.

End App.

(** ** Vocabulary of the specification *)

(** The eight known planet identifiers. *)
Definition planet_identifiers : list string :=
  [ "mercury"; "venus"; "earth"; "mars";
    "jupiter"; "saturn"; "uranus"; "neptune" ].

(** The canonical capitalized name of each identifier. *)
Definition canonical_names : list (string * string) :=
  [ ("mercury", "Mercury"); ("venus", "Venus"); ("earth", "Earth");
    ("mars", "Mars"); ("jupiter", "Jupiter"); ("saturn", "Saturn");
    ("uranus", "Uranus"); ("neptune", "Neptune") ].

(** The attributes of a planet record that hold text. *)
Definition text_fields : list string :=
  [ "name"; "diameter"; "distance_from_sun"; "orbital_period";
    "day_length"; "temperature"; "description" ].

(** A field that holds text. *)
Definition is_text (field : option Py.value) : bool :=
  match field with
  | Some (Py.Str _) => true
  | _ => false
  end.

(** A field that holds a non-negative integer. *)
Definition is_nonneg_int (field : option Py.value) : bool :=
  match field with
  | Some (Py.Int n) => (0 <=? n)%Z
  | _ => false
  end.

(** An ASCII letter, small or capital. *)
Definition is_letter (c : ascii) : bool :=
  let n := N_of_ascii c in
  (((65 <=? n) && (n <=? 90)) || ((97 <=? n) && (n <=? 122)))%N.

(** A text made of ASCII letters only. *)
Fixpoint all_letters (s : string) : bool :=
  match s with
  | EmptyString => true
  | String c rest => is_letter c && all_letters rest
  end.

(** The character [c] occurs in [s]. *)
Fixpoint contains_char (c : ascii) (s : string) : bool :=
  match s with
  | EmptyString => false
  | String c' rest => Ascii.eqb c' c || contains_char c rest
  end.

(** [s] is a case variant of [key]: the same length, and at each position
    the character of [key] or its capital. *)
Fixpoint case_variant (key s : string) : bool :=
  match key, s with
  | EmptyString, EmptyString => true
  | String k key', String c s' =>
      (Ascii.eqb c k || Ascii.eqb c (Py.upper_char k)) && case_variant key' s'
  | _, _ => false
  end.

(** ** The fixed table of the design notes

    The specification describes the lookup service as a single
    process-wide table, initialised once when the process starts and
    referenced by every lookup. This module follows that description; it
    is compared with [planet_info] below. *)

Module FixedTable.

(** The state of the process: the table and the Sun record. *)
Record process : Type := Process {
  planet_table : gmap string record;
  sun_record : record
}.

(** Process start: both are constructed once. *)
Definition startup : process :=
  {| planet_table := list_to_map planets_display;
     sun_record := match get_json (sun_info tt) with
                   | Some d => d
                   | None => ∅
                   end |}.

(** [getPlanet]: case-fold, then exact-match lookup, with the empty
    record for an unknown identifier. *)
Definition getPlanet (p : process) (identifier : string) : record :=
  match planet_table p !! Py.lower identifier with
  | Some r => r
  | None => ∅
  end.

(** [getSun] *)
Definition getSun (p : process) : record := sun_record p.

(** One lookup against the running process: the answer, and the
    process afterwards. *)
Definition lookup_step (p : process) (identifier : string) : process * response :=
  (p, jsonify (getPlanet p identifier)).

(** A sequence of lookups against one process. *)
Fixpoint run (p : process) (identifiers : list string) : process * list response :=
  match identifiers with
  | [] => (p, [])
  | identifier :: rest =>
      let '(p1, r) := lookup_step p identifier in
      let '(p2, rs) := run p1 rest in
      (p2, r :: rs)
  end.

End FixedTable.

(** * Properties *)

(** Equations between closed maps, sets or lookups are decided by
    evaluation of their decision procedure. *)
Ltac by_evaluation :=
  apply (bool_decide_eq_true_1 _); vm_compute; reflexivity.

(** ** [str.lower] and case variants *)

Lemma lower_char_idemp (c : ascii) :
  Py.lower_char (Py.lower_char c) = Py.lower_char c.
Proof. destruct c as [[] [] [] [] [] [] [] []]; reflexivity. Qed.

Lemma lower_idemp (s : string) : Py.lower (Py.lower s) = Py.lower s.
Proof.
  induction s as [|c s IH]; simpl.
  - reflexivity.
  - rewrite lower_char_idemp, IH. reflexivity.
Qed.

Lemma lower_length (s : string) : String.length (Py.lower s) = String.length s.
Proof. induction s as [|c s IH]; simpl; congruence. Qed.

(** A small letter and its capital fold to the small letter. *)
Lemma lower_char_of_variant (k c : ascii) :
  Py.lower_char k = k ->
  (Ascii.eqb c k || Ascii.eqb c (Py.upper_char k)) = true ->
  Py.lower_char c = k.
Proof.
  intros Hk Hc. apply orb_true_iff in Hc as [Hc|Hc];
    apply Ascii.eqb_eq in Hc; subst c; [exact Hk|].
  revert Hk. destruct k as [[] [] [] [] [] [] [] []]; vm_compute; congruence.
Qed.

(** Conversely, what folds to [k] is [k] or its capital. *)
Lemma variant_of_lower_char (k c : ascii) :
  Py.lower_char c = k ->
  (Ascii.eqb c k || Ascii.eqb c (Py.upper_char k)) = true.
Proof.
  intros <-. destruct c as [[] [] [] [] [] [] [] []]; reflexivity.
Qed.

Lemma case_variant_lower (key s : string) :
  Py.lower key = key -> case_variant key s = true -> Py.lower s = key.
Proof.
  revert s. induction key as [|k key IH]; intros [|c s] Hkey Hv;
    simpl in *; try discriminate; [reflexivity|].
  apply andb_true_iff in Hv as [Hc Hs].
  injection Hkey as Hk Hkey.
  rewrite (lower_char_of_variant k c Hk Hc), (IH s Hkey Hs). reflexivity.
Qed.

Lemma lower_case_variant (s : string) : case_variant (Py.lower s) s = true.
Proof.
  induction s as [|c s IH]; simpl; [reflexivity|].
  rewrite IH, (variant_of_lower_char (Py.lower_char c) c eq_refl).
  reflexivity.
Qed.

(** The inputs that fold to a key are its case variants, and only they. *)
Lemma lower_eq_iff_case_variant (key s : string) :
  Py.lower key = key ->
  Py.lower s = key <-> case_variant key s = true.
Proof.
  intros Hkey. split.
  - intros <-. apply lower_case_variant.
  - apply case_variant_lower, Hkey.
Qed.

(** ** Dict displays *)

Lemma foldl_insert_union {V} (items : list (string * V)) (d : gmap string V) :
  NoDup items.*1 ->
  foldl (fun d kv => <[kv.1 := kv.2]> d) d items = list_to_map items ∪ d.
Proof.
  revert d. induction items as [|[k v] items IH]; intros d Hnd.
  - symmetry. apply (left_id_L ∅ (∪)).
  - rewrite fmap_cons in Hnd. apply NoDup_cons in Hnd as [Hk Hnd].
    cbn [foldl list_to_map fst snd].
    rewrite IH by exact Hnd.
    rewrite list_to_map_cons, <- insert_union_l.
    symmetry. apply insert_union_r, not_elem_of_list_to_map_1, Hk.
Qed.

(** With pairwise distinct keys a dict display is the map of its items. *)
Lemma dict_list_to_map {V} (items : list (string * V)) :
  NoDup items.*1 -> Py.dict items = list_to_map items.
Proof.
  intros Hnd. unfold Py.dict.
  rewrite foldl_insert_union by exact Hnd.
  apply (right_id_L ∅ (∪)).
Qed.

(** A repeated key keeps the value written last. *)
Example dict_repeated_key :
  Py.dict [("a", 1%Z); ("b", 2%Z); ("a", 3%Z)] !! "a" = Some 3%Z.
Proof. reflexivity. Qed.

Lemma planets_display_keys : planets_display.*1 = planet_identifiers.
Proof. reflexivity. Qed.

Lemma planet_identifiers_NoDup : NoDup planet_identifiers.
Proof. apply NoDup_ListNoDup. repeat constructor; simpl; intuition discriminate. Qed.

(** ** The planet table *)

Lemma planets_display_NoDup : NoDup planets_display.*1.
Proof. rewrite planets_display_keys. exact planet_identifiers_NoDup. Qed.

(** A key outside the eight identifiers is not in the table. *)
Lemma planets_lookup_unknown (planet_name : string) (key : string) :
  key ∉ planet_identifiers ->
  planets (planet_info_body planet_name) !! key = None.
Proof.
  intros Hkey. cbn [planet_info_body planets].
  rewrite dict_list_to_map by exact planets_display_NoDup.
  apply not_elem_of_list_to_map_1.
  rewrite planets_display_keys. exact Hkey.
Qed.

(** Each of the eight identifiers has a record, and that record carries
    the canonical name. *)
Lemma lookup_Some_nonempty (r : record) (f : string) (v : Py.value) :
  r !! f = Some v -> r <> ∅.
Proof. intros Hf ->. rewrite lookup_empty in Hf. discriminate Hf. Qed.

Lemma get_lookup_Some {V} (d : gmap string V) (key : string) (dflt : V) :
  is_Some (d !! key) -> d !! key = Some (Py.get d key dflt).
Proof. intros [v Hv]. unfold Py.get. rewrite Hv. reflexivity. Qed.

Lemma planets_lookup_known (planet_name key name : string) :
  (key, name) ∈ canonical_names ->
  exists r : record,
    planets (planet_info_body planet_name) !! key = Some r
    /\ r <> ∅
    /\ r !! "name" = Some (Py.Str name).
Proof.
  intros Hin. apply list_elem_of_In in Hin. simpl in Hin.
  cbn [planet_info_body planets].
  exists (Py.get (Py.dict planets_display) key ∅).
  assert (H : is_Some (Py.dict planets_display !! key)
              /\ Py.get (Py.dict planets_display) key ∅ !! "name"
                 = Some (Py.Str name)).
  { repeat (destruct Hin as [Heq|Hin];
      [ injection Heq as <- <-; split; by_evaluation | ]).
    contradiction. }
  destruct H as [Hr Hname]. split; [apply get_lookup_Some, Hr|].
  split; [|exact Hname].
  exact (lookup_Some_nonempty _ _ _ Hname).
Qed.

Lemma canonical_names_keys : canonical_names.*1 = planet_identifiers.
Proof. reflexivity. Qed.

Lemma planet_identifiers_lower (key : string) :
  key ∈ planet_identifiers -> Py.lower key = key.
Proof.
  intros Hin. apply list_elem_of_In in Hin. simpl in Hin.
  repeat (destruct Hin as [<-|Hin]; [reflexivity|]). contradiction.
Qed.

(** ** Unknown identifiers *)

Lemma planet_info_unknown (identifier : string) :
  Py.lower identifier ∉ planet_identifiers ->
  planet_info identifier = jsonify ∅.
Proof.
  intros Hunknown. unfold planet_info. f_equal.
  cbn [planet_info_body planet_data]. unfold Py.get.
  change (Py.dict planets_display) with (planets (planet_info_body identifier)).
  rewrite planets_lookup_unknown by exact Hunknown. reflexivity.
Qed.

(** C1. For every identifier whose lowercase form is not one of the eight
    planet identifiers, the planet-info view returns (it does not raise) a
    200 response whose JSON body is the empty object. *)
Theorem planet_info_unknown_empty
    (render_template : string -> option string) (identifier : string) :
  Py.lower identifier ∉ planet_identifiers ->
  dispatch render_template (GetPlanetInfo identifier)
  = Returned {| status_code := 200; data := Json ∅ |}.
Proof.
  intros Hunknown. cbn [dispatch].
  rewrite planet_info_unknown by exact Hunknown. reflexivity.
Qed.

Lemma not_in_planet_identifiers (key : string) :
  bool_decide (key ∈ planet_identifiers) = false -> key ∉ planet_identifiers.
Proof. intros H. apply bool_decide_eq_false in H. exact H. Qed.

Lemma planet_info_unknown_empty_witness :
  (Py.lower "pluto" ∉ planet_identifiers)
  /\ dispatch (fun _ => None) (GetPlanetInfo "pluto")
     = Returned {| status_code := 200; data := Json ∅ |}.
Proof.
  assert (H : Py.lower "pluto" ∉ planet_identifiers)
    by (apply not_in_planet_identifiers; vm_compute; reflexivity).
  split; [exact H|].
  exact (planet_info_unknown_empty (fun _ => None) "pluto" H).
Defined.

Example planet_info_empty_string : planet_info "" = jsonify ∅.
Proof. vm_compute. reflexivity. Qed.

Example planet_info_xyz123 : planet_info "xyz123" = jsonify ∅.
Proof. vm_compute. reflexivity. Qed.

Example planet_info_pluto : planet_info "pluto" = jsonify ∅.
Proof. vm_compute. reflexivity. Qed.

(** ** Known identifiers *)

Lemma planet_info_known (key name s : string) :
  (key, name) ∈ canonical_names ->
  Py.lower s = key ->
  exists r : record,
    planet_info s = jsonify r
    /\ r <> ∅
    /\ r !! "name" = Some (Py.Str name).
Proof.
  intros Hin Hlow.
  destruct (planets_lookup_known s key name Hin) as (r & Hr & Hne & Hname).
  exists r. split; [|split; assumption].
  unfold planet_info. f_equal.
  cbn [planet_info_body planet_data planets] in *. unfold Py.get.
  rewrite Hlow, Hr. reflexivity.
Qed.

(** C2. For each of the eight planet identifiers and every case variant
    of it, the planet-info view returns a non-empty record whose [name]
    is the canonical capitalized name of the planet. *)
Theorem planet_info_case_variant_name (key name s : string) :
  (key, name) ∈ canonical_names ->
  case_variant key s = true ->
  exists r : record,
    planet_info s = jsonify r
    /\ r <> ∅
    /\ r !! "name" = Some (Py.Str name).
Proof.
  intros Hin Hvar. apply (planet_info_known key name s Hin).
  apply case_variant_lower; [|exact Hvar].
  apply planet_identifiers_lower. rewrite <- canonical_names_keys.
  apply (list_elem_of_fmap_2 fst canonical_names (key, name)), Hin.
Qed.

Lemma planet_info_case_variant_name_witness :
  exists r : record,
    planet_info "EaRTH" = jsonify r
    /\ r <> ∅
    /\ r !! "name" = Some (Py.Str "Earth").
Proof.
  apply (planet_info_case_variant_name "earth" "Earth" "EaRTH").
  - apply list_elem_of_In. simpl. right. right. left. reflexivity.
  - reflexivity.
Defined.

(** C3. [planet_info("Mars")] is the Mars record, field for field, and
    nothing else. *)
Theorem planet_info_Mars :
  planet_info "Mars"
  = jsonify (list_to_map
      [ ("name", Py.Str "Mars");
        ("diameter", Py.Str "6,779 km");
        ("distance_from_sun", Py.Str "227.9 million km");
        ("orbital_period", Py.Str "687 Earth days");
        ("day_length", Py.Str "24.6 hours");
        ("temperature", Py.Str "-65°C (average)");
        ("moons", Py.Int 2);
        ("description", Py.Str "Mars is known as the Red Planet due to iron oxide on its surface.") ]).
Proof. apply (f_equal jsonify). by_evaluation. Qed.

(** ** The Sun *)

(** C4. The sun-info view takes no input, returns (it does not raise), and
    its response is the fixed Sun record with status 200. *)
Theorem sun_info_fixed (render_template : string -> option string) :
  dispatch render_template GetSunInfo
  = Returned {| status_code := 200;
                data := Json (list_to_map
      [ ("name", Py.Str "Sun");
        ("type", Py.Str "G-type main-sequence star");
        ("diameter", Py.Str "1,392,700 km");
        ("mass", Py.Str "1.989 × 10³⁰ kg");
        ("surface_temperature", Py.Str "5,500°C");
        ("core_temperature", Py.Str "15 million°C");
        ("age", Py.Str "4.6 billion years");
        ("composition", Py.Str "73% Hydrogen, 25% Helium");
        ("description", Py.Str "The Sun is the star at the center of our Solar System. It provides the energy that sustains life on Earth.") ]) |}.
Proof.
  cbn [dispatch]. apply (f_equal Returned), (f_equal jsonify). by_evaluation.
Qed.

(** ** The mapping *)

(** C5. The table consulted by any call of [planet_info] has exactly eight
    entries, its keys are exactly the eight planet identifiers, and any
    two calls consult the same table. *)
Theorem planets_fixed_eight (planet_name other : string) :
  size (planets (planet_info_body planet_name)) = 8
  /\ dom (planets (planet_info_body planet_name))
     = list_to_set planet_identifiers
  /\ planets (planet_info_body planet_name)
     = planets (planet_info_body other).
Proof.
  split; [|split].
  - by_evaluation.
  - by_evaluation.
  - reflexivity.
Qed.

(** ** Matching *)

Example planet_info_terra : planet_info "terra" = jsonify ∅.
Proof. vm_compute. reflexivity. Qed.

Example planet_info_earths : planet_info "earths" = jsonify ∅.
Proof. vm_compute. reflexivity. Qed.

(** X1. The inputs that get a record are the case variants of the eight
    keys, and only they. *)
Lemma planet_info_matches_iff (s : string) :
  planet_info s <> jsonify ∅
  <-> exists key, key ∈ planet_identifiers /\ case_variant key s = true.
Proof.
  split.
  - intros Hne. exists (Py.lower s). split; [|apply lower_case_variant].
    destruct (decide (Py.lower s ∈ planet_identifiers)) as [Hin|Hout];
      [exact Hin|].
    destruct Hne. apply planet_info_unknown, Hout.
  - intros (key & Hkey & Hvar) Hempty.
    assert (Hname : exists name, (key, name) ∈ canonical_names).
    { rewrite <- canonical_names_keys in Hkey.
      apply list_elem_of_fmap in Hkey as ([k name] & -> & Hin).
      exists name. exact Hin. }
    destruct Hname as [name Hin].
    assert (Hlow : Py.lower s = key).
    { apply case_variant_lower; [|exact Hvar].
      apply planet_identifiers_lower. rewrite <- canonical_names_keys.
      apply (list_elem_of_fmap_2 fst canonical_names (key, name)), Hin. }
    destruct (planet_info_known key name s Hin Hlow) as (r & Hr & Hne & _).
    rewrite Hr in Hempty. injection Hempty as Hempty. contradiction.
Qed.

(** ** The shape of the records *)

(** The Sun record has a [diameter]: it cannot have all six planet
    attributes missing. *)
Lemma sun_record_has_diameter :
  ~ (exists r : record,
       sun_info tt = jsonify r
       /\ Forall (fun f => is_Some (r !! f))
            [ "name"; "type"; "mass"; "surface_temperature";
              "core_temperature"; "age"; "composition"; "description" ]
       /\ Forall (fun f => r !! f = None)
            [ "diameter"; "distance_from_sun"; "orbital_period";
              "day_length"; "temperature"; "moons" ]).
Proof.
  intros (r & Hr & _ & Habsent).
  injection Hr as <-.
  apply Forall_inv in Habsent.
  vm_compute in Habsent. discriminate Habsent.
Qed.

(** C7, as the code has it. The Sun record has exactly the nine fields
    [name], [type], [diameter], [mass], [surface_temperature],
    [core_temperature], [age], [composition] and [description]; it has no
    [distance_from_sun], [orbital_period], [day_length], [temperature] or
    [moons] field. *)
Theorem sun_record_fields :
  exists r : record,
    sun_info tt = jsonify r
    /\ dom r = list_to_set
         [ "name"; "type"; "diameter"; "mass"; "surface_temperature";
           "core_temperature"; "age"; "composition"; "description" ]
    /\ Forall (fun f => r !! f = None)
         [ "distance_from_sun"; "orbital_period"; "day_length";
           "temperature"; "moons" ].
Proof.
  unfold sun_info. eexists. split; [reflexivity|]. split.
  - by_evaluation.
  - repeat (constructor; [by_evaluation|]). constructor.
Qed.

Lemma is_text_spec (field : option Py.value) :
  is_text field = true -> exists t : string, field = Some (Py.Str t).
Proof.
  destruct field as [[t|n]|]; simpl; try discriminate.
  intros _. exists t. reflexivity.
Qed.

Lemma is_nonneg_int_spec (field : option Py.value) :
  is_nonneg_int field = true ->
  exists n : Z, field = Some (Py.Int n) /\ (0 <= n)%Z.
Proof.
  destruct field as [[t|n]|]; simpl; try discriminate.
  intros Hn. exists n. split; [reflexivity|]. apply Z.leb_le, Hn.
Qed.

(** The shape of one record of the table, as a check that computes. *)
Lemma planet_record_shape (key : string) :
  key ∈ planet_identifiers ->
  let r := Py.get (Py.dict planets_display) key ∅ in
  is_nonneg_int (r !! "moons") = true
  /\ forallb (fun f => is_text (r !! f)) text_fields = true
  /\ dom r = list_to_set ("moons" :: text_fields).
Proof.
  intros Hin. apply list_elem_of_In in Hin. simpl in Hin.
  repeat (destruct Hin as [<-|Hin];
    [ split; [|split];
      [ vm_compute; reflexivity | vm_compute; reflexivity | by_evaluation ]
    | ]).
  contradiction.
Qed.

(** C8. In the record returned for a known identifier, [moons] is a
    non-negative integer, the seven other fields are text, and there is
    no further field. *)
Theorem planet_record_types (s : string) :
  Py.lower s ∈ planet_identifiers ->
  exists r : record,
    planet_info s = jsonify r
    /\ (exists n : Z, r !! "moons" = Some (Py.Int n) /\ (0 <= n)%Z)
    /\ Forall (fun f => exists t : string, r !! f = Some (Py.Str t)) text_fields
    /\ dom r = list_to_set ("moons" :: text_fields).
Proof.
  intros Hin.
  destruct (planet_record_shape (Py.lower s) Hin) as (Hmoons & Htext & Hdom).
  exists (Py.get (Py.dict planets_display) (Py.lower s) ∅).
  split; [reflexivity|]. split; [|split].
  - apply is_nonneg_int_spec, Hmoons.
  - apply Forall_forall. intros f Hf. apply is_text_spec.
    apply (proj1 (forallb_forall _ _) Htext), list_elem_of_In, Hf.
  - exact Hdom.
Qed.

Lemma planet_record_types_witness :
  exists r : record,
    planet_info "Saturn" = jsonify r
    /\ (exists n : Z, r !! "moons" = Some (Py.Int n) /\ (0 <= n)%Z)
    /\ Forall (fun f => exists t : string, r !! f = Some (Py.Str t)) text_fields
    /\ dom r = list_to_set ("moons" :: text_fields).
Proof.
  apply (planet_record_types "Saturn").
  apply list_elem_of_In. vm_compute. do 5 right. left. reflexivity.
Defined.

(** ** Repeated calls *)

(** C9. In any sequence of requests, whatever the others are, any two
    sun-info requests get the same answer, and that answer is the fixed Sun
    record: a returned 200 response with the nine fields below. *)
Theorem sun_info_idempotent
    (render_template : string -> option string)
    (reqs : list request) (i j : nat) :
  reqs !! i = Some GetSunInfo ->
  reqs !! j = Some GetSunInfo ->
  serve render_template reqs !! i = serve render_template reqs !! j
  /\ serve render_template reqs !! i
     = Some (Returned {| status_code := 200;
                         data := Json (list_to_map
      [ ("name", Py.Str "Sun");
        ("type", Py.Str "G-type main-sequence star");
        ("diameter", Py.Str "1,392,700 km");
        ("mass", Py.Str "1.989 × 10³⁰ kg");
        ("surface_temperature", Py.Str "5,500°C");
        ("core_temperature", Py.Str "15 million°C");
        ("age", Py.Str "4.6 billion years");
        ("composition", Py.Str "73% Hydrogen, 25% Helium");
        ("description", Py.Str "The Sun is the star at the center of our Solar System. It provides the energy that sustains life on Earth.") ]) |}).
Proof.
  intros Hi Hj. unfold serve.
  rewrite !list_lookup_fmap, Hi, Hj. split; [reflexivity|].
  change (Some (dispatch render_template GetSunInfo)
          = Some (Returned (jsonify (list_to_map
      [ ("name", Py.Str "Sun");
        ("type", Py.Str "G-type main-sequence star");
        ("diameter", Py.Str "1,392,700 km");
        ("mass", Py.Str "1.989 × 10³⁰ kg");
        ("surface_temperature", Py.Str "5,500°C");
        ("core_temperature", Py.Str "15 million°C");
        ("age", Py.Str "4.6 billion years");
        ("composition", Py.Str "73% Hydrogen, 25% Helium");
        ("description", Py.Str "The Sun is the star at the center of our Solar System. It provides the energy that sustains life on Earth.") ])))).
  cbn [dispatch]. unfold sun_info.
  apply (f_equal Some), (f_equal Returned), (f_equal jsonify). by_evaluation.
Qed.

Lemma sun_info_idempotent_witness :
  let reqs := [GetSunInfo; GetPlanetInfo "Mars"; GetIndex; GetSunInfo] in
  serve (fun _ => None) reqs !! 0 = serve (fun _ => None) reqs !! 3
  /\ exists r : response,
       serve (fun _ => None) reqs !! 0 = Some (Returned r)
       /\ status_code r = 200%Z.
Proof.
  destruct (sun_info_idempotent (fun _ => None)
              [GetSunInfo; GetPlanetInfo "Mars"; GetIndex; GetSunInfo] 0 3
              eq_refl eq_refl) as [Hsame Hanswer].
  split; [exact Hsame|].
  eexists. split; [exact Hanswer|reflexivity].
Defined.

(** ** Per-request table and fixed table *)

Lemma planets_eq_fixed_table (planet_name : string) :
  planets (planet_info_body planet_name)
  = FixedTable.planet_table FixedTable.startup.
Proof. apply dict_list_to_map, planets_display_NoDup. Qed.

Lemma planet_info_eq_getPlanet (s : string) :
  planet_info s = jsonify (FixedTable.getPlanet FixedTable.startup s).
Proof.
  unfold planet_info. apply (f_equal jsonify).
  unfold FixedTable.getPlanet.
  rewrite <- (planets_eq_fixed_table s). reflexivity.
Qed.

Lemma run_fixed_table (identifiers : list string) :
  FixedTable.run FixedTable.startup identifiers
  = (FixedTable.startup, planet_info <$> identifiers).
Proof.
  induction identifiers as [|identifier rest IH].
  - reflexivity.
  - cbn [FixedTable.run FixedTable.lookup_step]. rewrite IH.
    rewrite fmap_cons, planet_info_eq_getPlanet. reflexivity.
Qed.

(** C10. The table built by a call of [planet_info] is the table fixed at
    startup, whatever the call; a call answers as a lookup in the fixed
    table does; and a sequence of calls answers as one process that keeps
    the fixed table does, that process being unchanged at the end. *)
Theorem per_request_equiv_fixed_table (s : string) (identifiers : list string) :
  planets (planet_info_body s) = FixedTable.planet_table FixedTable.startup
  /\ planet_info s = jsonify (FixedTable.getPlanet FixedTable.startup s)
  /\ FixedTable.run FixedTable.startup identifiers
     = (FixedTable.startup, planet_info <$> identifiers).
Proof.
  split; [|split].
  - apply planets_eq_fixed_table.
  - apply planet_info_eq_getPlanet.
  - apply run_fixed_table.
Qed.

(** * Further properties of the views *)

(** ** What never matches *)

Lemma is_letter_lower_char (c : ascii) :
  is_letter (Py.lower_char c) = is_letter c.
Proof. destruct c as [[] [] [] [] [] [] [] []]; reflexivity. Qed.

Lemma all_letters_lower (s : string) :
  all_letters (Py.lower s) = all_letters s.
Proof.
  induction s as [|c s IH]; simpl; [reflexivity|].
  rewrite is_letter_lower_char, IH. reflexivity.
Qed.

Lemma planet_identifiers_letters (key : string) :
  key ∈ planet_identifiers ->
  all_letters key = true /\ 4 <= String.length key <= 7.
Proof.
  intros Hin. apply list_elem_of_In in Hin. simpl in Hin.
  repeat (destruct Hin as [<-|Hin]; [split; [reflexivity|simpl; lia]|]).
  contradiction.
Qed.

Lemma planet_info_nonempty_known (s : string) :
  planet_info s <> jsonify ∅ -> Py.lower s ∈ planet_identifiers.
Proof.
  intros Hne.
  destruct (decide (Py.lower s ∈ planet_identifiers)) as [Hin|Hout];
    [exact Hin|].
  destruct Hne. apply planet_info_unknown, Hout.
Qed.

Lemma jsonify_inj (r1 r2 : record) : jsonify r1 = jsonify r2 -> r1 = r2.
Proof. intros H. injection H as H. exact H. Qed.

(** A call whose record has a field did not get the empty record. *)
Lemma planet_info_field_nonempty (s f : string) (v : Py.value) :
  planet_data (planet_info_body s) !! f = Some v ->
  planet_info s <> jsonify ∅.
Proof.
  intros Hf H. apply jsonify_inj in H. rewrite H, lookup_empty in Hf.
  discriminate Hf.
Qed.

(** X2. The name is not cleaned up before the lookup: an input with any
    byte that is not an ASCII letter (a space before or after the name, a
    digit, a hyphen, a letter outside ASCII) gets the empty record. *)
Theorem planet_info_non_letter_empty (s : string) :
  all_letters s = false -> planet_info s = jsonify ∅.
Proof.
  intros Hs. apply planet_info_unknown. intros Hin.
  destruct (planet_identifiers_letters _ Hin) as [Hletters _].
  rewrite all_letters_lower in Hletters. congruence.
Qed.

Lemma planet_info_non_letter_empty_witness :
  planet_info "Earth " = jsonify ∅.
Proof. apply (planet_info_non_letter_empty "Earth "). reflexivity. Defined.

(** X3. Only inputs of four to seven bytes can get a record. *)
Theorem planet_info_nonempty_length (s : string) :
  planet_info s <> jsonify ∅ -> 4 <= String.length s <= 7.
Proof.
  intros Hne. rewrite <- lower_length.
  apply planet_identifiers_letters, planet_info_nonempty_known, Hne.
Qed.

Lemma planet_info_nonempty_length_witness : 4 <= String.length "VENUS" <= 7.
Proof.
  apply (planet_info_nonempty_length "VENUS").
  apply (planet_info_field_nonempty "VENUS" "moons" (Py.Int 0)).
  by_evaluation.
Defined.

(** ** The name in a record *)

Lemma canonical_names_lower (key name : string) :
  (key, name) ∈ canonical_names -> Py.lower name = key.
Proof.
  intros Hin. apply list_elem_of_In in Hin. simpl in Hin.
  repeat (destruct Hin as [Heq|Hin]; [injection Heq as <- <-; reflexivity|]).
  contradiction.
Qed.

(** The [name] of a served record folds to the folded input. *)
Lemma planet_info_name_lower (s : string) (r : record) :
  planet_info s = jsonify r ->
  r <> ∅ ->
  exists name : string,
    r !! "name" = Some (Py.Str name) /\ Py.lower name = Py.lower s.
Proof.
  intros Hr Hne.
  assert (Hin : Py.lower s ∈ planet_identifiers).
  { apply planet_info_nonempty_known. rewrite Hr. intros H.
    apply jsonify_inj in H. contradiction. }
  rewrite <- canonical_names_keys in Hin.
  apply list_elem_of_fmap in Hin as ([key name] & Hkey & Hin).
  simpl in Hkey.
  destruct (planet_info_known key name s Hin Hkey)
    as (r' & Hr' & _ & Hname).
  rewrite Hr in Hr'. apply jsonify_inj in Hr'. subst r'.
  exists name. split; [exact Hname|].
  rewrite Hkey. apply canonical_names_lower, Hin.
Qed.

Lemma planet_info_lower_eq (s1 s2 : string) :
  Py.lower s1 = Py.lower s2 -> planet_info s1 = planet_info s2.
Proof.
  intros H. unfold planet_info. cbn [planet_info_body planet_data].
  rewrite H. reflexivity.
Qed.

(** X4. The [name] of a served record is itself an accepted identifier
    of that record: asking for it gives the same response again. *)
Theorem planet_info_name_round_trip (s name : string) (r : record) :
  planet_info s = jsonify r ->
  r !! "name" = Some (Py.Str name) ->
  planet_info name = planet_info s.
Proof.
  intros Hr Hname.
  destruct (planet_info_name_lower s r Hr (lookup_Some_nonempty _ _ _ Hname))
    as (name' & Hname' & Hlow).
  rewrite Hname in Hname'. injection Hname' as <-.
  apply planet_info_lower_eq, Hlow.
Qed.

Lemma planet_info_name_round_trip_witness :
  planet_info "Jupiter" = planet_info "jUPITER".
Proof.
  apply (planet_info_name_round_trip "jUPITER" "Jupiter"
           (Py.get (Py.dict planets_display) "jupiter" ∅)).
  - reflexivity.
  - by_evaluation.
Defined.

(** X5. Two inputs that get the same record name the same planet: the
    eight records are pairwise different. *)
Theorem planet_info_injective (s1 s2 : string) :
  planet_info s1 = planet_info s2 ->
  planet_info s1 <> jsonify ∅ ->
  Py.lower s1 = Py.lower s2.
Proof.
  intros Heq Hne.
  set (r := planet_data (planet_info_body s1)).
  assert (Hr1 : planet_info s1 = jsonify r) by reflexivity.
  assert (Hr : r <> ∅).
  { intros H. apply Hne. rewrite Hr1, H. reflexivity. }
  destruct (planet_info_name_lower s1 r Hr1 Hr) as (n1 & Hn1 & Hl1).
  rewrite Heq in Hr1.
  destruct (planet_info_name_lower s2 r Hr1 Hr) as (n2 & Hn2 & Hl2).
  rewrite Hn1 in Hn2. injection Hn2 as <-. congruence.
Qed.

Lemma planet_info_injective_witness : Py.lower "Mars" = Py.lower "mARS".
Proof.
  apply (planet_info_injective "Mars" "mARS").
  - reflexivity.
  - apply (planet_info_field_nonempty "Mars" "moons" (Py.Int 2)).
    by_evaluation.
Defined.

(** ** The responses of the planet view *)

Lemma planets_lookup_display (s : string) (r : record) :
  Py.dict planets_display !! Py.lower s = Some r
  <-> (Py.lower s, r) ∈ planets_display.
Proof.
  rewrite dict_list_to_map by exact planets_display_NoDup.
  symmetry. apply elem_of_list_to_map, planets_display_NoDup.
Qed.

(** X6. No entry of the table is shadowed by another: an input that folds
    to the key of an entry of the dict display gets the record written in
    that entry. *)
Theorem planets_display_served (s : string) (r : record) :
  (Py.lower s, r) ∈ planets_display -> planet_info s = jsonify r.
Proof.
  intros Hin. apply planets_lookup_display in Hin.
  unfold planet_info. apply (f_equal jsonify).
  cbn [planet_info_body planet_data]. unfold Py.get.
  rewrite Hin. reflexivity.
Qed.

Lemma planets_display_served_witness :
  planet_info "URANUS" = jsonify (nth 6 planets_display ("", ∅)).2.
Proof.
  apply (planets_display_served "URANUS" (nth 6 planets_display ("", ∅)).2).
  by_evaluation.
Defined.

(** X8. The planet view never answers with the Sun record, whatever it is
    asked: the Sun is served by its own view only. *)
Theorem planet_info_never_sun (s : string) : planet_info s <> sun_info tt.
Proof.
  intros H.
  destruct (decide (Py.lower s ∈ planet_identifiers)) as [Hin|Hout].
  - destruct (planet_record_shape _ Hin) as (Hmoons & _ & _).
    unfold planet_info, sun_info in H. apply jsonify_inj in H.
    cbn [planet_info_body planet_data] in H. rewrite H in Hmoons.
    vm_compute in Hmoons. discriminate Hmoons.
  - rewrite (planet_info_unknown s Hout) in H.
    unfold sun_info in H. apply jsonify_inj in H.
    apply (f_equal (lookup "name")) in H. rewrite lookup_empty in H.
    vm_compute in H. discriminate H.
Qed.

(** ** Matching: fold, then exact lookup *)

Lemma contains_k_lower (s : string) :
  contains_char "k" s = true -> contains_char "k" (Py.lower s) = true.
Proof.
  induction s as [|c s IH]; simpl; [discriminate|].
  intros H. apply orb_true_iff in H as [H|H].
  - apply Ascii.eqb_eq in H. subst c. reflexivity.
  - rewrite (IH H). apply orb_true_r.
Qed.

Lemma planet_identifiers_no_k (key : string) :
  key ∈ planet_identifiers -> contains_char "k" key = false.
Proof.
  intros Hin. apply list_elem_of_In in Hin. simpl in Hin.
  repeat (destruct Hin as [<-|Hin]; [reflexivity|]). contradiction.
Qed.

(** An input with a byte that is not a letter, or whose folded form has a
    [k], folds to no key. *)
Lemma lower_not_identifier (t : string) :
  all_letters t = false \/ contains_char "k" t = true ->
  Py.lower t ∉ planet_identifiers.
Proof.
  intros [Ht|Ht] Hin.
  - destruct (planet_identifiers_letters _ Hin) as [Hletters _].
    rewrite all_letters_lower in Hletters. congruence.
  - apply contains_k_lower in Ht.
    rewrite (planet_identifiers_no_k _ Hin) in Ht. discriminate Ht.
Qed.

(** The folded input of the view may be computed by any lowering function
    that folds the letters [A]..[Z] as [str.lower] does and that turns a
    text with a character other than an ASCII letter into a text that has
    such a character again or has a [k]. *)
Lemma planet_info_any_lower (lc : string -> string) (s : string) :
  (forall t, all_letters t = true -> lc t = Py.lower t) ->
  (forall t, all_letters t = false ->
     all_letters (lc t) = false \/ contains_char "k" (lc t) = true) ->
  planet_info s = planet_info (lc s).
Proof.
  intros Hascii Hother.
  destruct (all_letters s) eqn:Hs.
  - rewrite (Hascii s Hs). apply planet_info_lower_eq.
    symmetry. apply lower_idemp.
  - rewrite (planet_info_unknown s)
      by (apply lower_not_identifier; left; exact Hs).
    rewrite (planet_info_unknown (lc s))
      by (apply lower_not_identifier, Hother, Hs).
    reflexivity.
Qed.

(** A folded input that is a key gets the record written for that key in
    the dict display, and that record is not empty. *)
Lemma planet_info_key_record (s : string) :
  Py.lower s ∈ planet_identifiers ->
  exists r : record,
    (Py.lower s, r) ∈ planets_display
    /\ r <> ∅
    /\ planet_info s = jsonify r.
Proof.
  intros Hin. rewrite <- canonical_names_keys in Hin.
  apply list_elem_of_fmap in Hin as ([key name] & Hkey & Hin).
  simpl in Hkey.
  destruct (planets_lookup_known s key name Hin) as (r & Hr & Hne & _).
  cbn [planet_info_body planets] in Hr. rewrite <- Hkey in Hr.
  exists r. split; [apply planets_lookup_display, Hr|].
  split; [exact Hne|].
  unfold planet_info. apply (f_equal jsonify).
  cbn [planet_info_body planet_data]. unfold Py.get.
  rewrite Hr. reflexivity.
Qed.

(** C6. Matching is case folding followed by an exact lookup in the fixed
    table. For every input [s]: a call on [s] and a call on the lowercase
    form of [s] give the same response; when the lowercase form of [s] is
    one of the eight keys the response is the non-empty record written for
    that key; when it is not, character for character, one of the eight
    keys the response is the empty record. The first statement is proved
    for [Py.lower] and for every other lowering function [lc] that agrees
    with the folding of [A]..[Z] on texts of ASCII letters and that maps a
    text with any other character to a text with such a character or with
    a [k]. Python's [str.lower] on text outside ASCII is such a function:
    the one character outside ASCII whose lowercase form is made of ASCII
    letters is the Kelvin sign, and its lowercase form is [k]. *)
Theorem planet_info_fold_then_exact (s : string) :
  planet_info s = planet_info (Py.lower s)
  /\ (Py.lower s ∈ planet_identifiers ->
      exists r : record,
        (Py.lower s, r) ∈ planets_display
        /\ r <> ∅
        /\ planet_info s = jsonify r)
  /\ (Py.lower s ∉ planet_identifiers -> planet_info s = jsonify ∅)
  /\ (forall lc : string -> string,
        (forall t, all_letters t = true -> lc t = Py.lower t) ->
        (forall t, all_letters t = false ->
           all_letters (lc t) = false \/ contains_char "k" (lc t) = true) ->
        planet_info s = planet_info (lc s)).
Proof.
  split; [|split; [|split]].
  - apply planet_info_lower_eq. symmetry. apply lower_idemp.
  - apply planet_info_key_record.
  - apply planet_info_unknown.
  - intros lc Hascii Hother. apply planet_info_any_lower; assumption.
Qed.

Lemma planet_info_fold_then_exact_witness :
  planet_info "EARTH" = planet_info (Py.lower "EARTH")
  /\ (exists r : record,
        (Py.lower "EARTH", r) ∈ planets_display
        /\ r <> ∅
        /\ planet_info "EARTH" = jsonify r)
  /\ planet_info " earth" = jsonify ∅
  /\ planet_info "Earth "
     = planet_info (if all_letters "Earth " then Py.lower "Earth " else "k").
Proof.
  destruct (planet_info_fold_then_exact "EARTH") as (Hfold & Hkey & _ & _).
  destruct (planet_info_fold_then_exact " earth") as (_ & _ & Hother & _).
  destruct (planet_info_fold_then_exact "Earth ") as (_ & _ & _ & Hany).
  split; [exact Hfold|]. split; [|split].
  - apply Hkey. by_evaluation.
  - apply Hother, not_in_planet_identifiers. vm_compute. reflexivity.
  - apply (Hany (fun t => if all_letters t then Py.lower t else "k")).
    + intros t Ht. rewrite Ht. reflexivity.
    + intros t Ht. rewrite Ht. right. reflexivity.
Defined.
